(** * vscan-error-code-analyzer: the analyzer of [main.py], embedded and verified

    [main.py] parses a command line, builds one [VscanErrorAnalyzer], sends
    one GET request and prints a report.  The embedding keeps that shape:
    Python values and exceptions ([Py]), the [requests] library as far as
    [scan] uses it ([Requests]), the process state the program writes to
    ([World], with the state-and-exception monad [M]) and the program itself
    ([Vscan]).  The network is a section variable: every theorem holds for
    every behaviour of the remote end. *)

From Stdlib Require Import ZArith String Ascii List Bool Lia.
From stdpp Require Import base option strings gmap pretty.
Import ListNotations.
Open Scope string_scope.
Open Scope Z_scope.

(** ** Python values and exceptions *)
Module Py.

(** The values the constructor of the analyzer can be handed as [url]. *)
Inductive value :=
| VNone
| VBool (b : bool)
| VInt (z : Z)
| VStr (s : string).

(** [str(v)], as an f-string placeholder [{v}] formats it. *)
Definition str (v : value) : string :=
  match v with
  | VNone => "None"
  | VBool true => "True"
  | VBool false => "False"
  | VInt z => pretty z
  | VStr s => s
  end.

(** [isinstance(v, str)] *)
Definition isinstance_str (v : value) : bool :=
  match v with VStr _ => true | _ => false end.

(** [s.startswith((p1, p2, ...))]: true when one of the prefixes fits. *)
Definition startswith (s : string) (prefixes : list string) : bool :=
  existsb (fun p => String.prefix p s) prefixes.

(** Truth value of an optional string: [None] and [""] are falsy. *)
Definition truthy_opt_str (o : option string) : bool :=
  match o with
  | None => false
  | Some s => negb (String.eqb s "")
  end.

(** [a or b] on an optional string with a string default. *)
Definition or_default (o : option string) (d : string) : string :=
  match o with
  | Some s => if truthy_opt_str o then s else d
  | None => d
  end.

(** Exception classes the program raises, catches or can be handed by the
    [requests] call.  The first five derive from
    [requests.exceptions.RequestException]; all but [SystemExit] derive
    from [Exception]. *)
Inductive exc_class :=
| HTTPError
| ConnectionError
| SSLError
| Timeout
| RequestException
| ValueError
| TypeError
| KeyError
| OtherException.

Inductive exn :=
| Exn (c : exc_class) (msg : string)
| SystemExit (code : Z).

(** [isinstance(e, requests.exceptions.RequestException)] *)
Definition is_RequestException (e : exn) : bool :=
  match e with
  | Exn (HTTPError | ConnectionError | SSLError | Timeout | RequestException) _ => true
  | _ => false
  end.

(** [isinstance(e, Exception)] *)
Definition is_Exception (e : exn) : bool :=
  match e with
  | Exn _ _ => true
  | SystemExit _ => false
  end.

Definition is_ValueError (e : exn) : bool :=
  match e with Exn ValueError _ => true | _ => false end.

Definition is_TypeError (e : exn) : bool :=
  match e with Exn TypeError _ => true | _ => false end.

(** [str(e)], the [{e}] of the handlers' f-strings. *)
Definition exn_str (e : exn) : string :=
  match e with
  | Exn _ msg => msg
  | SystemExit code => pretty code
  end.

End Py.

(** ** The part of [requests] that [scan] calls *)
Module Requests.

(** What [requests.get(url, headers=, timeout=, verify=)] is called with. *)
Record Request := mkRequest {
  req_url : string;
  req_headers : list (string * string);
  req_timeout : Z;
  req_verify : bool
}.

(** The fields of a [requests.Response] the program and
    [raise_for_status] read.  [headers] keeps the order in which the
    server sent them, which is the order [dict(response.headers)]
    iterates in. *)
Record Response := mkResponse {
  status_code : Z;
  reason : string;
  resp_url : string;
  headers : list (string * string)
}.

(** How one GET ends: with a response, whatever its status, or with an
    exception of some class derived from [Exception] (DNS failure and
    refused connection: [ConnectionError]; [Timeout]; TLS failure:
    [SSLError]; a rejected argument: [ValueError]; ...).  Interrupts of
    the interpreter itself are not outcomes of the call. *)
Inductive get_outcome :=
| Responds (r : Response)
| Fails (c : Py.exc_class) (msg : string).

(** [Response.raise_for_status()]: silent below 400 and from 600 on,
    [HTTPError] with a "Client Error" text for 4xx and a "Server Error"
    text for 5xx (line 58 of the source notes "Raise HTTPError for bad
    responses (4xx or 5xx)"). *)
Definition raise_for_status (r : Response) : Py.exn + unit :=
  if (400 <=? status_code r) && (status_code r <? 500) then
    inl (Py.Exn Py.HTTPError
           (pretty (status_code r) ++ " Client Error: " ++ reason r
              ++ " for url: " ++ resp_url r))
  else if (500 <=? status_code r) && (status_code r <? 600) then
    inl (Py.Exn Py.HTTPError
           (pretty (status_code r) ++ " Server Error: " ++ reason r
              ++ " for url: " ++ resp_url r))
  else inr tt.

End Requests.

(** ** Process state and the monad of statements *)
Module World.

Inductive level := DEBUG | INFO | WARNING | ERROR.

(** The numeric values of the [logging] levels. *)
Definition levelno (l : level) : Z :=
  match l with
  | DEBUG => 10
  | INFO => 20
  | WARNING => 30
  | ERROR => 40
  end.

Inductive warning_category := InsecureRequestWarning.

Record world := mkWorld {
  stdout : list string;                       (* lines printed, oldest first *)
  log : list (level * string);                (* records the root logger emitted *)
  sent : list Requests.Request;               (* GET requests handed to the network *)
  warnings_shown : list warning_category;     (* warnings that reached the user *)
  root_level : level;                         (* level of the root logger *)
  disabled_warnings : list warning_category   (* urllib3.disable_warnings *)
}.

(** The state after the module body has run: line 8 disables the
    insecure-request warning, line 11 configures the root logger at INFO. *)
Definition after_import : world :=
  {| stdout := [];
     log := [];
     sent := [];
     warnings_shown := [];
     root_level := INFO;
     disabled_warnings := [InsecureRequestWarning] |}.

End World.

(** A statement either raises or returns, and leaves a new state. *)
Definition M (A : Type) : Type := World.world -> (Py.exn + A) * World.world.

Definition ret {A} (a : A) : M A := fun w => (inr a, w).

Definition raise {A} (e : Py.exn) : M A := fun w => (inl e, w).

Definition bind {A B} (m : M A) (k : A -> M B) : M B :=
  fun w =>
    match m w with
    | (inr a, w') => k a w'
    | (inl e, w') => (inl e, w')
    end.

(** A pure step that can raise, lifted to a statement. *)
Definition lift {A} (r : Py.exn + A) : M A :=
  match r with
  | inl e => raise e
  | inr a => ret a
  end.

Declare Scope py_scope.
Delimit Scope py_scope with py.
Notation "x <- m ;; k" := (bind m (fun x => k))
  (at level 100, m at next level, right associativity) : py_scope.
Notation "m ;;; k" := (bind m (fun _ => k))
  (at level 100, right associativity) : py_scope.
Open Scope py_scope.

(** [try: body / except C1 as e: h1 e / except C2 as e: h2 e / ...]: the
    first clause whose class fits handles the exception; what a handler
    raises is not offered to the later clauses. *)
Fixpoint select_handler {A} (clauses : list ((Py.exn -> bool) * (Py.exn -> M A)))
    (e : Py.exn) : option (M A) :=
  match clauses with
  | [] => None
  | (handles, handler) :: rest =>
      if handles e then Some (handler e) else select_handler rest e
  end.

Definition try_clauses {A} (body : M A)
    (clauses : list ((Py.exn -> bool) * (Py.exn -> M A))) : M A :=
  fun w =>
    match body w with
    | (inr a, w') => (inr a, w')
    | (inl e, w') =>
        match select_handler clauses e with
        | Some h => h w'
        | None => (inl e, w')
        end
    end.

(** ** Primitive statements *)
Section Primitives.
Import World.

(** [print(line)] *)
Definition print (line : string) : M unit :=
  fun w =>
    (inr tt,
     {| stdout := stdout w ++ [line]; log := log w; sent := sent w;
        warnings_shown := warnings_shown w; root_level := root_level w;
        disabled_warnings := disabled_warnings w |}).

(** [logging.info], [logging.warning], [logging.error]: the root logger
    emits a record whose level is not below its own. *)
Definition logging (l : level) (msg : string) : M unit :=
  fun w =>
    (inr tt,
     if levelno (root_level w) <=? levelno l then
       {| stdout := stdout w; log := log w ++ [(l, msg)]; sent := sent w;
          warnings_shown := warnings_shown w; root_level := root_level w;
          disabled_warnings := disabled_warnings w |}
     else w).

(** [logging.getLogger().setLevel(l)] *)
Definition setLevel (l : level) : M unit :=
  fun w =>
    (inr tt,
     {| stdout := stdout w; log := log w; sent := sent w;
        warnings_shown := warnings_shown w; root_level := l;
        disabled_warnings := disabled_warnings w |}).

Definition warning_disabled (c : warning_category) (w : world) : bool :=
  existsb (fun d => match d, c with
                    | InsecureRequestWarning, InsecureRequestWarning => true
                    end) (disabled_warnings w).

(** [sys.exit(code)] *)
Definition sys_exit {A} (code : Z) : M A := raise (Py.SystemExit code).

(** The remote end and everything between: what a GET comes back with. *)
Variable network : Requests.Request -> Requests.get_outcome.

(** [requests.get(...)]: the request goes out; an HTTPS request without
    certificate verification makes urllib3 issue an insecure-request
    warning, shown unless that category is disabled; then the network
    decides. *)
Definition requests_get (rq : Requests.Request) : M Requests.Response :=
  fun w =>
    let warn :=
      negb (Requests.req_verify rq)
      && String.prefix "https://" (Requests.req_url rq)
      && negb (warning_disabled InsecureRequestWarning w) in
    let w' :=
      {| stdout := stdout w; log := log w; sent := sent w ++ [rq];
         warnings_shown :=
           if warn then warnings_shown w ++ [InsecureRequestWarning]
           else warnings_shown w;
         root_level := root_level w;
         disabled_warnings := disabled_warnings w |} in
    match network rq with
    | Requests.Responds r => (inr r, w')
    | Requests.Fails c msg => (inl (Py.Exn c msg), w')
    end.

End Primitives.

(** ** The scan result *)
Module Result.

(** The dictionary [scan] returns; each of its three [return] statements
    builds it from the same five keys. *)
Record ScanResult := mkResult {
  url : string;
  status_code : option Z;
  description : string;
  vulnerable : bool;
  response_headers : list (string * string)
}.

Definition keys (r : ScanResult) : list string :=
  ["url"; "status_code"; "description"; "vulnerable"; "response_headers"].

(** The truth value of the dictionary, as [if result:] takes it: a
    dictionary is false only when it has no key. *)
Definition truthy (r : ScanResult) : bool :=
  negb (Nat.eqb (length (keys r)) 0).

(** [result['status_code']] as a Python value: [None] or an integer. *)
Definition status_value (r : ScanResult) : Py.value :=
  match status_code r with
  | None => Py.VNone
  | Some c => Py.VInt c
  end.

End Result.

(** ** The program *)
Module Vscan.
Import World.

(** The attributes [__init__] sets on the analyzer. *)
Record VscanErrorAnalyzer := mkAnalyzer {
  url : string;
  user_agent : string;
  timeout : Z;
  ignore_ssl_errors : bool;
  headers : list (string * string);
  error_patterns : gmap Z string
}.

(** The dictionary literal of lines 38-46. *)
Definition error_patterns_literal : gmap Z string :=
  <[400 := "Possible input validation issues. Check for malformed requests."]>
  (<[401 := "Authentication required. Investigate authentication mechanisms and bypasses."]>
  (<[403 := "Forbidden. Potential directory listing vulnerability or access control misconfiguration."]>
  (<[404 := "Not Found. Check for information disclosure or path traversal vulnerabilities."]>
  (<[405 := "Method Not Allowed. Investigate allowed methods and potential for exploitation."]>
  (<[500 := "Internal Server Error. Check server logs for details. Potential for remote code execution or information disclosure."]>
  (<[503 := "Service Unavailable. Check for denial-of-service vulnerabilities."]>
   ∅)))))).

(** [VscanErrorAnalyzer.__init__(url, user_agent, timeout,
    ignore_ssl_errors)]: the two checks on [url], then the attributes. *)
Definition init (url_arg : Py.value) (user_agent_arg : option string)
    (timeout_arg : Z) (ignore_ssl_errors_arg : bool)
    : Py.exn + VscanErrorAnalyzer :=
  match url_arg with
  | Py.VStr u =>
      if negb (Py.startswith u ["http://"; "https://"]) then
        inl (Py.Exn Py.ValueError "URL must start with http:// or https://")
      else
        let ua := Py.or_default user_agent_arg "vscan-error-code-analyzer/1.0" in
        inr {| url := u;
               user_agent := ua;
               timeout := timeout_arg;
               ignore_ssl_errors := ignore_ssl_errors_arg;
               headers := [("User-Agent", ua)];
               error_patterns := error_patterns_literal |}
  | _ => inl (Py.Exn Py.TypeError "URL must be a string.")
  end.

(** [self.error_patterns[status_code]]: a missing key raises [KeyError]. *)
Definition getitem (d : gmap Z string) (k : Z) : Py.exn + string :=
  match d !! k with
  | Some v => inr v
  | None => inl (Py.Exn Py.KeyError (pretty k))
  end.

(** [status_code in self.error_patterns] *)
Definition contains (d : gmap Z string) (k : Z) : bool :=
  bool_decide (is_Some (d !! k)).

(** The arguments of the [requests.get] call of line 57. *)
Definition request_of (self : VscanErrorAnalyzer) : Requests.Request :=
  {| Requests.req_url := url self;
     Requests.req_headers := headers self;
     Requests.req_timeout := timeout self;
     Requests.req_verify := negb (ignore_ssl_errors self) |}.

Section WithNetwork.
Variable network : Requests.Request -> Requests.get_outcome.

(** Lines 56-80, the body of the [try] of [scan]. *)
Definition scan_body (self : VscanErrorAnalyzer) : M Result.ScanResult :=
  logging INFO ("Scanning URL: " ++ url self) ;;;
  response <- requests_get network (request_of self) ;;
  lift (Requests.raise_for_status response) ;;;
  let status_code := Requests.status_code response in
  logging INFO ("Received status code: " ++ pretty status_code) ;;;
  if contains (error_patterns self) status_code then
    d <- lift (getitem (error_patterns self) status_code) ;;
    logging WARNING ("Found error code: " ++ pretty status_code ++ " - " ++ d) ;;;
    d' <- lift (getitem (error_patterns self) status_code) ;;
    ret {| Result.url := url self;
           Result.status_code := Some status_code;
           Result.description := d';
           Result.vulnerable := true;
           Result.response_headers := Requests.headers response |}
  else
    logging INFO "No common error codes found." ;;;
    ret {| Result.url := url self;
           Result.status_code := Some status_code;
           Result.description := "No known vulnerability associated with this status code.";
           Result.vulnerable := false;
           Result.response_headers := Requests.headers response |}.

(** Lines 83-91, the handler of [requests.exceptions.RequestException]. *)
Definition on_request_exception (self : VscanErrorAnalyzer) (e : Py.exn)
    : M Result.ScanResult :=
  logging ERROR ("Request error: " ++ Py.exn_str e) ;;;
  ret {| Result.url := url self;
         Result.status_code := None;
         Result.description := "Request error: " ++ Py.exn_str e;
         Result.vulnerable := false;
         Result.response_headers := [] |}.

(** Lines 92-100, the handler of [Exception]. *)
Definition on_exception (self : VscanErrorAnalyzer) (e : Py.exn)
    : M Result.ScanResult :=
  logging ERROR ("An unexpected error occurred: " ++ Py.exn_str e) ;;;
  ret {| Result.url := url self;
         Result.status_code := None;
         Result.description := "An unexpected error occurred: " ++ Py.exn_str e;
         Result.vulnerable := false;
         Result.response_headers := [] |}.

(** [VscanErrorAnalyzer.scan] *)
Definition scan (self : VscanErrorAnalyzer) : M Result.ScanResult :=
  try_clauses (scan_body self)
    [ (Py.is_RequestException, on_request_exception self);
      (Py.is_Exception, on_exception self) ].

End WithNetwork.

End Vscan.

(** ** The command line and [main] *)
Module Cli.
Import World.

(** A command line [argparse] accepts: the positional [url] and, for each
    option, whether and with what value it was given. *)
Record CommandLine := mkCommandLine {
  given_url : string;
  given_user_agent : option string;   (* -u / --user-agent *)
  given_timeout : option Z;           (* -t / --timeout, already an int *)
  given_ignore_ssl : bool;            (* --ignore-ssl *)
  given_verbose : bool                (* -v / --verbose *)
}.

(** The parser [setup_argparse] returns, as far as it decides values: the
    defaults of its [add_argument] calls. *)
Record ArgumentParser := mkParser {
  default_user_agent : string;
  default_timeout : Z;
  default_ignore_ssl : bool;
  default_verbose : bool
}.

Definition setup_argparse : ArgumentParser :=
  {| default_user_agent := "vscan-error-code-analyzer/1.0";
     default_timeout := 10;
     default_ignore_ssl := false;     (* action="store_true" *)
     default_verbose := false |}.     (* action="store_true" *)

(** The namespace [parser.parse_args()] returns. *)
Record Namespace := mkNamespace {
  url : string;
  user_agent : string;
  timeout : Z;
  ignore_ssl : bool;
  verbose : bool
}.

Definition parse_args (parser : ArgumentParser) (c : CommandLine) : Namespace :=
  {| url := given_url c;
     user_agent := default (default_user_agent parser) (given_user_agent c);
     timeout := default (default_timeout parser) (given_timeout c);
     ignore_ssl := given_ignore_ssl c || default_ignore_ssl parser;
     verbose := given_verbose c || default_verbose parser |}.

(** The loop of lines 138-139 over [result['response_headers'].items()]. *)
Fixpoint print_headers (items : list (string * string)) : M unit :=
  match items with
  | [] => ret tt
  | (key, value) :: rest =>
      print ("  " ++ key ++ ": " ++ value) ;;;
      print_headers rest
  end.

Section WithNetwork.
Variable network : Requests.Request -> Requests.get_outcome.

(** Lines 129-142, the body of the [try] of [main]. *)
Definition main_body (args : Namespace) : M unit :=
  analyzer <- lift (Vscan.init (Py.VStr (url args)) (Some (user_agent args))
                      (timeout args) (ignore_ssl args)) ;;
  result <- Vscan.scan network analyzer ;;
  if Result.truthy result then
    print ("URL: " ++ Py.str (Py.VStr (Result.url result))) ;;;
    print ("Status Code: " ++ Py.str (Result.status_value result)) ;;;
    print ("Description: " ++ Py.str (Py.VStr (Result.description result))) ;;;
    print ("Vulnerable: " ++ Py.str (Py.VBool (Result.vulnerable result))) ;;;
    print "Response Headers:" ;;;
    print_headers (Result.response_headers result)
  else
    print "No results found.".

(** Lines 144-149: both handlers print the error and exit with 1. *)
Definition on_input_error (e : Py.exn) : M unit :=
  print ("Error: " ++ Py.exn_str e) ;;;
  sys_exit 1.

(** [main] *)
Definition main (c : CommandLine) : M unit :=
  let parser := setup_argparse in
  let args := parse_args parser c in
  (if verbose args then setLevel DEBUG else ret tt) ;;;
  try_clauses (main_body args)
    [ (Py.is_ValueError, on_input_error);
      (Py.is_TypeError, on_input_error) ].

(** The exit status of the interpreter: 0 when [main] returns, the code
    of a [SystemExit], 1 after any other exception that nobody caught. *)
Definition exit_status (r : Py.exn + unit) : Z :=
  match r with
  | inr _ => 0
  | inl (Py.SystemExit code) => code
  | inl (Py.Exn _ _) => 1
  end.

(** One run of the script: import the module, then [main()]. *)
Definition run (c : CommandLine) : Z * world :=
  let (r, w) := main c after_import in
  (exit_status r, w).

End WithNetwork.

End Cli.

(** * Vocabulary of the statements *)

(** ** Values and states of [scan] *)
Section ScanVocabulary.
Import World Vscan.
Variable network : Requests.Request -> Requests.get_outcome.

(** The seven status codes the table has an entry for. *)
Definition pattern_codes : list Z := [400; 401; 403; 404; 405; 500; 503].

(** The dictionary of the two [except] clauses, [text] being the message
    before the exception's own. *)
Definition error_result (self : VscanErrorAnalyzer) (text msg : string)
    : Result.ScanResult :=
  {| Result.url := url self;
     Result.status_code := None;
     Result.description := text ++ msg;
     Result.vulnerable := false;
     Result.response_headers := [] |}.

(** The dictionary of lines 63-80 for a response that passed
    [raise_for_status]. *)
Definition classified (self : VscanErrorAnalyzer) (r : Requests.Response)
    : Result.ScanResult :=
  match error_patterns self !! Requests.status_code r with
  | Some d =>
      {| Result.url := url self;
         Result.status_code := Some (Requests.status_code r);
         Result.description := d;
         Result.vulnerable := true;
         Result.response_headers := Requests.headers r |}
  | None =>
      {| Result.url := url self;
         Result.status_code := Some (Requests.status_code r);
         Result.description := "No known vulnerability associated with this status code.";
         Result.vulnerable := false;
         Result.response_headers := Requests.headers r |}
  end.

(** The value [scan] returns, read off the outcome of the GET. *)
Definition scan_value (self : VscanErrorAnalyzer) : Result.ScanResult :=
  match network (request_of self) with
  | Requests.Responds r =>
      match Requests.raise_for_status r with
      | inl e => error_result self "Request error: " (Py.exn_str e)
      | inr _ => classified self r
      end
  | Requests.Fails c msg =>
      if Py.is_RequestException (Py.Exn c msg)
      then error_result self "Request error: " msg
      else error_result self "An unexpected error occurred: " msg
  end.

(** Two states that differ at most in the log. *)
Definition same_but_log (w w' : world) : Prop :=
  stdout w' = stdout w /\ sent w' = sent w
  /\ warnings_shown w' = warnings_shown w
  /\ root_level w' = root_level w
  /\ disabled_warnings w' = disabled_warnings w.

(** The state right after the GET went out. *)
Definition after_get (rq : Requests.Request) (w : world) : world :=
  {| stdout := stdout w; log := log w; sent := sent w ++ [rq];
     warnings_shown :=
       if negb (Requests.req_verify rq)
          && String.prefix "https://" (Requests.req_url rq)
          && negb (warning_disabled InsecureRequestWarning w)
       then warnings_shown w ++ [InsecureRequestWarning]
       else warnings_shown w;
     root_level := root_level w;
     disabled_warnings := disabled_warnings w |}.

(** The text [raise_for_status] puts into its [HTTPError]. *)
Definition http_error_text (r : Requests.Response) : string :=
  pretty (Requests.status_code r)
  ++ (if Requests.status_code r <? 500 then " Client Error: " else " Server Error: ")
  ++ Requests.reason r ++ " for url: " ++ Requests.resp_url r.

End ScanVocabulary.

(** ** Runs of the script *)
Section RunVocabulary.
Import World.

(** The check of line 30 on a string. *)
Definition valid_url (s : string) : bool :=
  Py.startswith s ["http://"; "https://"].

(** The analyzer [main] builds from a command line with a valid URL. *)
Definition analyzer_of (c : Cli.CommandLine) : Vscan.VscanErrorAnalyzer :=
  let args := Cli.parse_args Cli.setup_argparse c in
  let ua := Py.or_default (Some (Cli.user_agent args))
              "vscan-error-code-analyzer/1.0" in
  {| Vscan.url := Cli.url args;
     Vscan.user_agent := ua;
     Vscan.timeout := Cli.timeout args;
     Vscan.ignore_ssl_errors := Cli.ignore_ssl args;
     Vscan.headers := [("User-Agent", ua)];
     Vscan.error_patterns := Vscan.error_patterns_literal |}.

(** One line of the loop over the headers. *)
Definition header_line (item : string * string) : string :=
  "  " ++ fst item ++ ": " ++ snd item.

(** What lines 133-139 print for a result, line by line. *)
Definition report (r : Result.ScanResult) : list string :=
  [ "URL: " ++ Result.url r;
    "Status Code: " ++ Py.str (Result.status_value r);
    "Description: " ++ Result.description r;
    "Vulnerable: " ++ Py.str (Py.VBool (Result.vulnerable r));
    "Response Headers:" ]
  ++ map header_line (Result.response_headers r).

(** The state in which [main] enters its [try]. *)
Definition at_try (c : Cli.CommandLine) : world :=
  if Cli.verbose (Cli.parse_args Cli.setup_argparse c)
  then snd (setLevel DEBUG after_import)
  else after_import.

(** A [url] argument that is not a string or lacks both prefixes. *)
Definition rejected_url (v : Py.value) : bool :=
  negb (Py.isinstance_str v)
  || match v with
     | Py.VStr s => negb (Py.startswith s ["http://"; "https://"])
     | _ => false
     end.

(** The invariant of C9 on a result, for the table [table]. *)
Definition result_invariant (table : gmap Z string) (r : Result.ScanResult)
    : Prop :=
  (Result.vulnerable r = true
   <-> exists code, Result.status_code r = Some code /\ In code pattern_codes)
  /\ (Result.vulnerable r = true ->
      Result.status_code r <> None
      /\ exists code, Result.status_code r = Some code
                      /\ table !! code = Some (Result.description r))
  /\ (Result.status_code r = None ->
      Result.vulnerable r = false /\ Result.response_headers r = []).

End RunVocabulary.

(** ** Remote ends and a command line used as examples *)

(** A remote end that answers every GET with the response [r]. *)
Definition answering (r : Requests.Response)
    : Requests.Request -> Requests.get_outcome :=
  fun _ => Requests.Responds r.

(** A remote end on which every GET fails with an exception of class [c]. *)
Definition failing (c : Py.exc_class) (msg : string)
    : Requests.Request -> Requests.get_outcome :=
  fun _ => Requests.Fails c msg.

(** A host with a self-signed certificate: a GET that verifies the
    certificate fails in the TLS handshake, one that does not is answered
    with [r]. *)
Definition self_signed_host (r : Requests.Response)
    : Requests.Request -> Requests.get_outcome :=
  fun rq =>
    if Requests.req_verify rq
    then Requests.Fails Py.SSLError "certificate verify failed: self-signed certificate"
    else Requests.Responds r.

(** [python main.py https://example.com] *)
Definition example_com : Cli.CommandLine :=
  {| Cli.given_url := "https://example.com";
     Cli.given_user_agent := None;
     Cli.given_timeout := None;
     Cli.given_ignore_ssl := false;
     Cli.given_verbose := false |}.

(** * Properties *)

(** ** The table of error patterns *)
Section Table.
Import Vscan.

Lemma literal_lookup_other (c : Z) :
  ¬ In c pattern_codes -> error_patterns_literal !! c = None.
Proof.
  intros Hc. unfold error_patterns_literal.
  repeat (rewrite lookup_insert_ne; [| intros <-; apply Hc; simpl; tauto]).
  apply lookup_empty.
Qed.

Lemma literal_lookup_code (c : Z) :
  In c pattern_codes -> is_Some (error_patterns_literal !! c).
Proof.
  simpl. intros H.
  repeat (destruct H as [<- | H]; [vm_compute; eauto |]).
  destruct H.
Qed.

Lemma contains_literal (c : Z) :
  contains error_patterns_literal c = true <-> In c pattern_codes.
Proof.
  unfold contains. rewrite bool_decide_eq_true. split.
  - intros Hs. destruct (decide (In c pattern_codes)) as [Hin | Hout]; [done |].
    rewrite (literal_lookup_other c Hout) in Hs. by destruct Hs.
  - apply literal_lookup_code.
Qed.

(** Every code of the table is one [raise_for_status] raises for. *)
Lemma pattern_codes_are_errors (c : Z) :
  In c pattern_codes -> 400 <= c < 600.
Proof. simpl. intros H. lia. Qed.

End Table.

(** ** What [scan] returns and what it leaves behind *)
Section ScanFacts.
Import World Vscan.
Variable network : Requests.Request -> Requests.get_outcome.

Lemma same_but_log_refl w : same_but_log w w.
Proof. by repeat split. Qed.

Lemma same_but_log_trans w1 w2 w3 :
  same_but_log w1 w2 -> same_but_log w2 w3 -> same_but_log w1 w3.
Proof.
  unfold same_but_log. intros (?&?&?&?&?) (?&?&?&?&?).
  repeat split; congruence.
Qed.

Lemma logging_runs (l : level) (msg : string) (w : world) :
  exists w', logging l msg w = (inr tt, w') /\ same_but_log w w'.
Proof.
  unfold logging. eexists; split; [reflexivity |].
  destruct (levelno (root_level w) <=? levelno l); by repeat split.
Qed.

Lemma requests_get_runs (rq : Requests.Request) (w : world) :
  requests_get network rq w =
    (match network rq with
     | Requests.Responds r => inr r
     | Requests.Fails c msg => inl (Py.Exn c msg)
     end, after_get rq w).
Proof. unfold requests_get, after_get. by destruct (network rq). Qed.

(** [scan] always returns, its value is [scan_value], and apart from the
    log it changes the state the way the one GET does. *)
Lemma scan_runs (self : VscanErrorAnalyzer) (w : world) :
  exists w', scan network self w = (inr (scan_value network self), w')
             /\ same_but_log (after_get (request_of self) w) w'.
Proof.
  unfold scan, try_clauses, scan_body, scan_value, bind.
  destruct (logging_runs INFO ("Scanning URL: " ++ url self) w) as (w1 & -> & H1).
  rewrite requests_get_runs.
  assert (Hg : same_but_log (after_get (request_of self) w)
                 (after_get (request_of self) w1)).
  { destruct H1 as (Ho & Hs & Hw & Hl & Hd).
    unfold same_but_log, after_get, warning_disabled. simpl.
    rewrite Ho, Hs, Hw, Hl, Hd. by repeat split. }
  destruct (network (request_of self)) as [r | c msg].
  - unfold lift at 1. destruct (Requests.raise_for_status r) as [e | []] eqn:Hr.
    + assert (He : Py.is_RequestException e = true).
      { unfold Requests.raise_for_status in Hr.
        repeat match type of Hr with
               | (if ?b then _ else _) = _ => destruct b
               end; by inversion Hr. }
      unfold raise, select_handler. rewrite He.
      unfold on_request_exception, bind.
      destruct (logging_runs ERROR ("Request error: " ++ Py.exn_str e)
                  (after_get (request_of self) w1)) as (w2 & -> & H2).
      eexists; split; [reflexivity |]. by eapply same_but_log_trans.
    + unfold ret at 1.
      destruct (logging_runs INFO
                  ("Received status code: " ++ pretty (Requests.status_code r))
                  (after_get (request_of self) w1)) as (w2 & -> & H2).
      unfold contains, classified, getitem.
      destruct (error_patterns self !! Requests.status_code r) as [d |] eqn:Hd.
      * rewrite bool_decide_eq_true_2 by eauto. unfold lift, ret.
        destruct (logging_runs WARNING
                    ("Found error code: " ++ pretty (Requests.status_code r)
                       ++ " - " ++ d) w2) as (w3 & -> & H3).
        eexists; split; [reflexivity |].
        eauto using same_but_log_trans.
      * rewrite bool_decide_eq_false_2 by (intros [? ?]; done).
        destruct (logging_runs INFO "No common error codes found." w2)
          as (w3 & -> & H3).
        unfold ret. eexists; split; [reflexivity |].
        eauto using same_but_log_trans.
  - unfold select_handler.
    destruct (Py.is_RequestException (Py.Exn c msg)) eqn:Hc.
    + unfold on_request_exception, bind, Py.exn_str.
      destruct (logging_runs ERROR ("Request error: " ++ msg)
                  (after_get (request_of self) w1)) as (w2 & -> & H2).
      eexists; split; [reflexivity |]. by eapply same_but_log_trans.
    + unfold on_exception, bind, Py.exn_str, Py.is_Exception.
      destruct (logging_runs ERROR ("An unexpected error occurred: " ++ msg)
                  (after_get (request_of self) w1)) as (w2 & -> & H2).
      eexists; split; [reflexivity |]. by eapply same_but_log_trans.
Qed.

End ScanFacts.

(** ** What one run of the script prints and sends *)
Section RunFacts.
Import World.
Variable network : Requests.Request -> Requests.get_outcome.

Lemma init_valid (u : string) (ua : option string) (t : Z) (i : bool) :
  valid_url u = true ->
  Vscan.init (Py.VStr u) ua t i =
    inr {| Vscan.url := u;
           Vscan.user_agent := Py.or_default ua "vscan-error-code-analyzer/1.0";
           Vscan.timeout := t;
           Vscan.ignore_ssl_errors := i;
           Vscan.headers :=
             [("User-Agent", Py.or_default ua "vscan-error-code-analyzer/1.0")];
           Vscan.error_patterns := Vscan.error_patterns_literal |}.
Proof. unfold valid_url, Vscan.init. by intros ->. Qed.

Lemma init_invalid (u : string) (ua : option string) (t : Z) (i : bool) :
  valid_url u = false ->
  Vscan.init (Py.VStr u) ua t i =
    inl (Py.Exn Py.ValueError "URL must start with http:// or https://").
Proof. unfold valid_url, Vscan.init. by intros ->. Qed.

Lemma init_not_str (v : Py.value) (ua : option string) (t : Z) (i : bool) :
  Py.isinstance_str v = false ->
  Vscan.init v ua t i = inl (Py.Exn Py.TypeError "URL must be a string.").
Proof. by destruct v. Qed.

Lemma print_headers_runs (items : list (string * string)) (w : world) :
  Cli.print_headers items w =
    (inr tt,
     {| stdout := stdout w ++ map header_line items; log := log w;
        sent := sent w; warnings_shown := warnings_shown w;
        root_level := root_level w;
        disabled_warnings := disabled_warnings w |}).
Proof.
  revert w. induction items as [| [k v] rest IH]; intros w.
  - destruct w. unfold Cli.print_headers, ret. simpl. by rewrite app_nil_r.
  - cbn [Cli.print_headers]. unfold bind, print. rewrite IH.
    cbn [stdout log sent warnings_shown root_level disabled_warnings map].
    by rewrite <- app_assoc.
Qed.

Lemma at_try_fields (c : Cli.CommandLine) :
  stdout (at_try c) = [] /\ sent (at_try c) = []
  /\ warnings_shown (at_try c) = []
  /\ disabled_warnings (at_try c) = [InsecureRequestWarning].
Proof. unfold at_try. by destruct (Cli.verbose _). Qed.

Lemma main_enters_try (c : Cli.CommandLine) :
  Cli.main network c after_import =
    try_clauses (Cli.main_body network (Cli.parse_args Cli.setup_argparse c))
      [ (Py.is_ValueError, Cli.on_input_error);
        (Py.is_TypeError, Cli.on_input_error) ] (at_try c).
Proof.
  unfold Cli.main, at_try, bind.
  by destruct (Cli.verbose (Cli.parse_args Cli.setup_argparse c)).
Qed.

(** A run on a valid URL: exit status 0, the report of the scan's value on
    standard output, one GET sent, no warning shown. *)
Lemma run_valid (c : Cli.CommandLine) :
  valid_url (Cli.given_url c) = true ->
  exists w,
    Cli.run network c = (0, w)
    /\ stdout w = report (scan_value network (analyzer_of c))
    /\ sent w = [Vscan.request_of (analyzer_of c)]
    /\ warnings_shown w = [].
Proof.
  intros Hv. unfold Cli.run. rewrite main_enters_try.
  unfold try_clauses, Cli.main_body, bind.
  rewrite init_valid by exact Hv. unfold lift, ret.
  fold (analyzer_of c).
  destruct (scan_runs network (analyzer_of c) (at_try c))
    as (w1 & -> & Ho & Hs & Hw & _ & _).
  destruct (at_try_fields c) as (Fo & Fs & Fw & Fd).
  unfold Result.truthy, Result.keys. cbn [length Nat.eqb negb].
  unfold bind, print. rewrite print_headers_runs.
  eexists; split; [reflexivity |].
  cbn [stdout log sent warnings_shown root_level disabled_warnings].
  rewrite Ho, Hs, Hw. unfold after_get, warning_disabled.
  cbn [stdout log sent warnings_shown root_level disabled_warnings].
  rewrite Fo, Fs, Fw, Fd. cbn [existsb orb negb andb].
  rewrite andb_false_r. by repeat split.
Qed.

(** A run on a URL without one of the two prefixes: the error is printed,
    the exit status is 1, nothing was sent. *)
Lemma run_invalid (c : Cli.CommandLine) :
  valid_url (Cli.given_url c) = false ->
  exists w,
    Cli.run network c = (1, w)
    /\ stdout w = ["Error: URL must start with http:// or https://"]
    /\ sent w = [].
Proof.
  intros Hv. unfold Cli.run. rewrite main_enters_try.
  unfold try_clauses, Cli.main_body, bind.
  rewrite init_invalid by exact Hv.
  destruct (at_try_fields c) as (Fo & Fs & _).
  eexists; split; [reflexivity |].
  cbn [stdout log sent warnings_shown root_level disabled_warnings].
  rewrite Fo, Fs. by split.
Qed.

End RunFacts.

(** ** The value of [scan] by kind of outcome *)
Section ScanValue.
Import Vscan.
Variable network : Requests.Request -> Requests.get_outcome.

Lemma raise_for_status_error (r : Requests.Response) :
  400 <= Requests.status_code r < 600 ->
  Requests.raise_for_status r = inl (Py.Exn Py.HTTPError (http_error_text r)).
Proof.
  intros [Hlo Hhi]. unfold Requests.raise_for_status, http_error_text.
  destruct (Z.leb_spec 400 (Requests.status_code r)); [| lia].
  destruct (Z.ltb_spec (Requests.status_code r) 500); [reflexivity |].
  destruct (Z.leb_spec 500 (Requests.status_code r)); [| lia].
  destruct (Z.ltb_spec (Requests.status_code r) 600); [reflexivity | lia].
Qed.

Lemma raise_for_status_silent (r : Requests.Response) :
  ¬ (400 <= Requests.status_code r < 600) ->
  Requests.raise_for_status r = inr tt.
Proof.
  intros Hout. unfold Requests.raise_for_status.
  destruct (Z.leb_spec 400 (Requests.status_code r));
    destruct (Z.ltb_spec (Requests.status_code r) 500);
    destruct (Z.leb_spec 500 (Requests.status_code r));
    destruct (Z.ltb_spec (Requests.status_code r) 600);
    simpl; try reflexivity; lia.
Qed.

(** A 4xx or 5xx response ends in the handler of [RequestException]. *)
Lemma scan_value_http_error (self : VscanErrorAnalyzer) (r : Requests.Response) :
  network (request_of self) = Requests.Responds r ->
  400 <= Requests.status_code r < 600 ->
  scan_value network self =
    error_result self "Request error: " (http_error_text r).
Proof.
  intros Hn Hr. unfold scan_value. rewrite Hn.
  by rewrite raise_for_status_error.
Qed.

(** Any other response reaches the lookup in the table. *)
Lemma scan_value_classified (self : VscanErrorAnalyzer) (r : Requests.Response) :
  network (request_of self) = Requests.Responds r ->
  ¬ (400 <= Requests.status_code r < 600) ->
  scan_value network self = classified self r.
Proof.
  intros Hn Hr. unfold scan_value. rewrite Hn.
  by rewrite raise_for_status_silent.
Qed.

Lemma init_error_patterns v ua t i (self : VscanErrorAnalyzer) :
  init v ua t i = inr self -> error_patterns self = error_patterns_literal.
Proof.
  unfold init. destruct v; try discriminate.
  destruct (negb _); [discriminate |]. by intros [= <-].
Qed.

(** With the table of [__init__], a response outside 400-599 is never in
    the table. *)
Lemma classified_outside_table (self : VscanErrorAnalyzer) (r : Requests.Response) :
  error_patterns self = error_patterns_literal ->
  ¬ In (Requests.status_code r) pattern_codes ->
  classified self r =
    {| Result.url := url self;
       Result.status_code := Some (Requests.status_code r);
       Result.description := "No known vulnerability associated with this status code.";
       Result.vulnerable := false;
       Result.response_headers := Requests.headers r |}.
Proof.
  intros Ht Hc. unfold classified. rewrite Ht.
  by rewrite literal_lookup_other.
Qed.

End ScanValue.

(** ** 4xx and 5xx responses: the call of line 58 against the table *)
Section HttpErrors.
Import Vscan.

Lemma scan_of_http_error (self : VscanErrorAnalyzer) (r : Requests.Response)
    (w : World.world) :
  400 <= Requests.status_code r < 600 ->
  fst (scan (answering r) self w) =
    inr (error_result self "Request error: " (http_error_text r)).
Proof.
  intros Hr. destruct (scan_runs (answering r) self w) as (w' & -> & _).
  cbn [fst]. f_equal. by apply scan_value_http_error.
Qed.

Lemma pretty_403 : pretty 403 = "403".
Proof. by vm_compute. Qed.

Lemma pretty_404 : pretty 404 = "404".
Proof. by vm_compute. Qed.

Lemma pretty_418 : pretty 418 = "418".
Proof. by vm_compute. Qed.

(** C1, evaluated where it fails: a GET answered with status 404 completes
    at the transport level, yet [scan] returns the dictionary of the
    [RequestException] handler, with [status_code] [None] and no response
    header, whatever headers the response carried. *)
Theorem C1_status_404_becomes_error_result :
  forall (self : VscanErrorAnalyzer) (reason rurl : string)
         (hdrs : list (string * string)) (w : World.world),
    fst (scan (answering (Requests.mkResponse 404 reason rurl hdrs)) self w) =
      inr {| Result.url := url self;
             Result.status_code := None;
             Result.description :=
               "Request error: 404 Client Error: " ++ reason ++ " for url: " ++ rurl;
             Result.vulnerable := false;
             Result.response_headers := [] |}.
Proof.
  intros. rewrite scan_of_http_error by (simpl; lia).
  unfold error_result, http_error_text. cbn [Requests.status_code].
  by rewrite pretty_404.
Qed.

(** C2, evaluated where it fails: for each of the seven codes of the table
    a scan that receives the code returns [vulnerable] [False],
    [status_code] [None] and the text of the [HTTPError] as description,
    not the entry of the table. *)
Theorem C2_table_codes_reported_not_vulnerable :
  forall (self : VscanErrorAnalyzer) (reason rurl : string)
         (hdrs : list (string * string)) (w : World.world),
    Forall
      (fun code =>
         exists r,
           fst (scan (answering (Requests.mkResponse code reason rurl hdrs)) self w)
             = inr r
           /\ Result.vulnerable r = false
           /\ Result.status_code r = None
           /\ Result.description r =
                "Request error: "
                ++ http_error_text (Requests.mkResponse code reason rurl hdrs)
           /\ error_patterns_literal !! code <> Some (Result.description r))
      pattern_codes.
Proof.
  intros. apply List.Forall_forall. intros code Hc.
  eexists. split; [apply scan_of_http_error; exact (pattern_codes_are_errors code Hc) |].
  repeat split. cbn [Result.description error_result].
  simpl in Hc. unfold http_error_text. cbn [Requests.status_code].
  repeat (destruct Hc as [<- | Hc];
          [intros Hd; vm_compute in Hd; discriminate |]).
  destruct Hc.
Qed.

(** C3, evaluated where it fails: status 418 is not in the table, and the
    description [scan] returns for it is the text of the [HTTPError], not
    the generic one. *)
Theorem C3_status_418_not_generic :
  forall (self : VscanErrorAnalyzer) (reason rurl : string)
         (hdrs : list (string * string)) (w : World.world),
    ¬ In 418 pattern_codes
    /\ exists r,
         fst (scan (answering (Requests.mkResponse 418 reason rurl hdrs)) self w)
           = inr r
         /\ Result.status_code r = None
         /\ Result.description r =
              "Request error: 418 Client Error: " ++ reason ++ " for url: " ++ rurl
         /\ Result.description r
              <> "No known vulnerability associated with this status code.".
Proof.
  intros. split; [simpl; lia |].
  eexists. split; [apply scan_of_http_error; simpl; lia |].
  unfold error_result, http_error_text.
  cbn [Result.status_code Result.description Requests.status_code].
  rewrite pretty_418. by repeat split.
Qed.

End HttpErrors.

(** ** The report for a 403 *)
Section Report403.
Import World.

Lemma analyzer_of_example_com :
  analyzer_of example_com =
    {| Vscan.url := "https://example.com";
       Vscan.user_agent := "vscan-error-code-analyzer/1.0";
       Vscan.timeout := 10;
       Vscan.ignore_ssl_errors := false;
       Vscan.headers := [("User-Agent", "vscan-error-code-analyzer/1.0")];
       Vscan.error_patterns := Vscan.error_patterns_literal |}.
Proof. reflexivity. Qed.

(** C6, evaluated where it fails: for [https://example.com] answered with
    status 403 and the header [Server: nginx] the report is the one of
    the [RequestException] handler; none of the four lines the claim
    lists is printed. *)
Theorem C6_report_for_403_is_error_report :
  forall (reason rurl : string),
  exists w,
    Cli.run (answering (Requests.mkResponse 403 reason rurl [("Server", "nginx")]))
      example_com = (0, w)
    /\ stdout w =
         [ "URL: https://example.com";
           "Status Code: None";
           "Description: Request error: 403 Client Error: " ++ reason
             ++ " for url: " ++ rurl;
           "Vulnerable: False";
           "Response Headers:" ]
    /\ Forall (fun line => ¬ In line (stdout w))
         [ "Status Code: 403";
           "Description: Forbidden. Potential directory listing vulnerability or access control misconfiguration.";
           "Vulnerable: True";
           "  Server: nginx" ].
Proof.
  intros reason rurl.
  set (r := Requests.mkResponse 403 reason rurl [("Server", "nginx")]).
  destruct (run_valid (answering r) example_com eq_refl) as (w & Hrun & Hout & _).
  exists w. split; [exact Hrun |].
  rewrite (scan_value_http_error _ _ r) in Hout by (done || (simpl; lia)).
  assert (Hlines : stdout w =
         [ "URL: https://example.com";
           "Status Code: None";
           "Description: Request error: 403 Client Error: " ++ reason
             ++ " for url: " ++ rurl;
           "Vulnerable: False";
           "Response Headers:" ]).
  { rewrite Hout. unfold report, error_result, http_error_text.
    cbn [Result.url Result.status_value Result.status_code Result.description
         Result.vulnerable Result.response_headers Requests.status_code
         Requests.reason Requests.resp_url r map app Py.str].
    rewrite pretty_403. reflexivity. }
  split; [exact Hlines |].
  rewrite Hlines.
  repeat (apply List.Forall_cons;
          [ cbn [In]; intros Hin;
            repeat (destruct Hin as [Hin | Hin]; [discriminate Hin |]);
            exact Hin |]).
  apply List.Forall_nil.
Qed.

End Report403.

(** ** Input validation *)
Section InputValidation.
Import World.

(** C4: for a [url] that is not a string, or is a string without the
    prefix [http://] or [https://], the constructor raises [TypeError] or
    [ValueError]; a run of the script on such a URL prints the error,
    exits with status 1 and sends no request. *)
Theorem C4_invalid_url_rejected :
  forall (network : Requests.Request -> Requests.get_outcome)
         (v : Py.value) (ua : option string) (t : Z) (i : bool),
    rejected_url v = true ->
    exists msg,
      (Vscan.init v ua t i = inl (Py.Exn Py.TypeError msg)
       \/ Vscan.init v ua t i = inl (Py.Exn Py.ValueError msg))
      /\ forall c : Cli.CommandLine,
           Py.VStr (Cli.given_url c) = v ->
           exists w,
             Cli.run network c = (1, w)
             /\ stdout w = ["Error: " ++ msg]
             /\ sent w = [].
Proof.
  intros network v ua t i Hv. unfold rejected_url in Hv.
  destruct (Py.isinstance_str v) eqn:Hs.
  - destruct v as [| | | s]; try discriminate Hs.
    cbn [negb orb] in Hv. apply negb_true_iff in Hv.
    exists "URL must start with http:// or https://". split.
    + right. by apply init_invalid.
    + intros c [= Hc]. apply run_invalid. unfold valid_url. by rewrite Hc.
  - exists "URL must be a string.". split.
    + left. by apply init_not_str.
    + intros c <-. discriminate Hs.
Qed.

Lemma C4_invalid_url_rejected_witness :
  rejected_url (Py.VStr "ftp://example.com") = true
  /\ exists msg,
      (Vscan.init (Py.VStr "ftp://example.com") None 10 false
         = inl (Py.Exn Py.TypeError msg)
       \/ Vscan.init (Py.VStr "ftp://example.com") None 10 false
         = inl (Py.Exn Py.ValueError msg))
      /\ forall c : Cli.CommandLine,
           Py.VStr (Cli.given_url c) = Py.VStr "ftp://example.com" ->
           exists w,
             Cli.run (failing Py.ConnectionError "unreachable") c = (1, w)
             /\ stdout w = ["Error: " ++ msg]
             /\ sent w = [].
Proof.
  split; [reflexivity |].
  apply (C4_invalid_url_rejected (failing Py.ConnectionError "unreachable")
           (Py.VStr "ftp://example.com") None 10 false).
  reflexivity.
Defined.

End InputValidation.

(** ** Transport failures *)
Section TransportFailures.
Import World.

(** C5: when the GET fails with an exception of the [RequestException]
    family (connection error, timeout, TLS error), [scan] returns a
    dictionary with [status_code] [None], [vulnerable] [False] and a
    description that ends with the error text; the script prints the
    report of that dictionary and exits with status 0. *)
Theorem C5_transport_failure_reported :
  forall (network : Requests.Request -> Requests.get_outcome)
         (c : Cli.CommandLine) (cls : Py.exc_class) (msg : string),
    valid_url (Cli.given_url c) = true ->
    network (Vscan.request_of (analyzer_of c)) = Requests.Fails cls msg ->
    Py.is_RequestException (Py.Exn cls msg) = true ->
    (forall w0, exists r w',
        Vscan.scan network (analyzer_of c) w0 = (inr r, w')
        /\ Result.status_code r = None
        /\ Result.vulnerable r = false
        /\ Result.description r = "Request error: " ++ msg)
    /\ exists w,
         Cli.run network c = (0, w)
         /\ stdout w =
              [ "URL: " ++ Cli.given_url c;
                "Status Code: None";
                "Description: Request error: " ++ msg;
                "Vulnerable: False";
                "Response Headers:" ].
Proof.
  intros network c cls msg Hv Hn Hc.
  assert (Hval : scan_value network (analyzer_of c)
                 = error_result (analyzer_of c) "Request error: " msg).
  { unfold scan_value. by rewrite Hn, Hc. }
  split.
  - intros w0. destruct (scan_runs network (analyzer_of c) w0) as (w' & Hs & _).
    exists (scan_value network (analyzer_of c)), w'.
    split; [exact Hs |]. by rewrite Hval.
  - destruct (run_valid network c Hv) as (w & Hrun & Hout & _).
    exists w. split; [exact Hrun |]. by rewrite Hout, Hval.
Qed.

Lemma C5_transport_failure_reported_witness :
  valid_url (Cli.given_url example_com) = true
  /\ failing Py.Timeout "Read timed out. (read timeout=10)"
       (Vscan.request_of (analyzer_of example_com))
     = Requests.Fails Py.Timeout "Read timed out. (read timeout=10)"
  /\ exists w,
       Cli.run (failing Py.Timeout "Read timed out. (read timeout=10)") example_com
         = (0, w)
       /\ stdout w =
            [ "URL: https://example.com";
              "Status Code: None";
              "Description: Request error: Read timed out. (read timeout=10)";
              "Vulnerable: False";
              "Response Headers:" ].
Proof.
  split; [reflexivity |]. split; [reflexivity |].
  exact (proj2 (C5_transport_failure_reported
                  (failing Py.Timeout "Read timed out. (read timeout=10)")
                  example_com Py.Timeout "Read timed out. (read timeout=10)"
                  eq_refl eq_refl eq_refl)).
Defined.

End TransportFailures.

(** ** The request that goes out *)
Section OutgoingRequest.
Import World.

(** C7: the one GET of a run verifies the certificate exactly when
    [--ignore-ssl] is absent, and no insecure-request warning is shown;
    with the flag set, a host that answers unverified requests with a
    response outside 400-599 gets the report of that response, not the
    report of an error. *)
Theorem C7_verify_iff_not_ignore_ssl :
  forall (network : Requests.Request -> Requests.get_outcome)
         (c : Cli.CommandLine),
    valid_url (Cli.given_url c) = true ->
    exists w rq,
      Cli.run network c = (0, w)
      /\ sent w = [rq]
      /\ Requests.req_verify rq = negb (Cli.given_ignore_ssl c)
      /\ (Requests.req_verify rq = true <-> Cli.given_ignore_ssl c = false)
      /\ warnings_shown w = []
      /\ forall r,
           Cli.given_ignore_ssl c = true ->
           (forall rq', Requests.req_verify rq' = false ->
                        network rq' = Requests.Responds r) ->
           ¬ (400 <= Requests.status_code r < 600) ->
           stdout w = report (classified (analyzer_of c) r).
Proof.
  intros network c Hv.
  destruct (run_valid network c Hv) as (w & Hrun & Hout & Hsent & Hwarn).
  exists w, (Vscan.request_of (analyzer_of c)).
  assert (Hver : Requests.req_verify (Vscan.request_of (analyzer_of c))
                 = negb (Cli.given_ignore_ssl c)).
  { unfold Vscan.request_of, analyzer_of, Cli.parse_args. simpl.
    by rewrite orb_false_r. }
  repeat split; try done.
  - rewrite Hver. by intros ->%negb_true_iff.
  - rewrite Hver. by intros ->.
  - intros r Hflag Hnet Hr. rewrite Hout. f_equal.
    apply scan_value_classified; [| exact Hr].
    apply Hnet. by rewrite Hver, Hflag.
Qed.

Lemma C7_verify_iff_not_ignore_ssl_witness :
  valid_url "https://self-signed.example" = true
  /\ exists w rq,
      Cli.run (self_signed_host (Requests.mkResponse 200 "OK" "https://self-signed.example/" []))
        (Cli.mkCommandLine "https://self-signed.example" None None true false)
        = (0, w)
      /\ sent w = [rq]
      /\ Requests.req_verify rq = false
      /\ warnings_shown w = []
      /\ stdout w =
           [ "URL: https://self-signed.example";
             "Status Code: 200";
             "Description: No known vulnerability associated with this status code.";
             "Vulnerable: False";
             "Response Headers:" ].
Proof.
  split; [reflexivity |].
  destruct (C7_verify_iff_not_ignore_ssl
              (self_signed_host (Requests.mkResponse 200 "OK" "https://self-signed.example/" []))
              (Cli.mkCommandLine "https://self-signed.example" None None true false)
              eq_refl)
    as (w & rq & Hrun & Hsent & Hver & _ & Hwarn & Hok).
  exists w, rq. repeat split; try assumption.
  rewrite (Hok (Requests.mkResponse 200 "OK" "https://self-signed.example/" []) eq_refl).
  - by vm_compute.
  - intros rq' Hrq. unfold self_signed_host. by rewrite Hrq.
  - simpl. lia.
Defined.

(** C8: the one GET of a run carries exactly the header [User-Agent] and
    the configured timeout (10 without [-t]); the user agent is the one
    given with [-u], and [vscan-error-code-analyzer/1.0] when [-u] is
    absent or empty; the constructor falls back to that default for every
    falsy [user_agent]. *)
Theorem C8_user_agent_header_and_timeout :
  forall (network : Requests.Request -> Requests.get_outcome)
         (c : Cli.CommandLine),
    valid_url (Cli.given_url c) = true ->
    exists w rq ua,
      Cli.run network c = (0, w)
      /\ sent w = [rq]
      /\ Requests.req_headers rq = [("User-Agent", ua)]
      /\ Requests.req_timeout rq = default 10 (Cli.given_timeout c)
      /\ (Cli.given_user_agent c = None \/ Cli.given_user_agent c = Some ""
          -> ua = "vscan-error-code-analyzer/1.0")
      /\ (forall s, Cli.given_user_agent c = Some s -> s <> "" -> ua = s)
      /\ forall v o t i self,
           Py.truthy_opt_str o = false ->
           Vscan.init v o t i = inr self ->
           Vscan.request_of self =
             {| Requests.req_url := Vscan.url self;
                Requests.req_headers :=
                  [("User-Agent", "vscan-error-code-analyzer/1.0")];
                Requests.req_timeout := t;
                Requests.req_verify := negb i |}.
Proof.
  intros network c Hv.
  destruct (run_valid network c Hv) as (w & Hrun & _ & Hsent & _).
  exists w, (Vscan.request_of (analyzer_of c)),
    (Py.or_default
       (Some (default "vscan-error-code-analyzer/1.0" (Cli.given_user_agent c)))
       "vscan-error-code-analyzer/1.0").
  repeat split; try done.
  - intros [-> | ->]; reflexivity.
  - intros s -> Hs. unfold Py.or_default, Py.truthy_opt_str. simpl.
    destruct (String.eqb_spec s ""); [contradiction | reflexivity].
  - intros v o t i self Ho. unfold Vscan.init.
    destruct v; try discriminate.
    destruct (negb _); [discriminate |]. intros [= <-].
    unfold Vscan.request_of, Py.or_default. simpl.
    destruct o; [| reflexivity]. by rewrite Ho.
Qed.

Lemma C8_user_agent_header_and_timeout_witness :
  valid_url (Cli.given_url example_com) = true
  /\ exists w,
      Cli.run (answering (Requests.mkResponse 200 "OK" "https://example.com/" []))
        example_com = (0, w)
      /\ sent w =
           [ {| Requests.req_url := "https://example.com";
                Requests.req_headers :=
                  [("User-Agent", "vscan-error-code-analyzer/1.0")];
                Requests.req_timeout := 10;
                Requests.req_verify := true |} ].
Proof.
  split; [reflexivity |].
  destruct (C8_user_agent_header_and_timeout
              (answering (Requests.mkResponse 200 "OK" "https://example.com/" []))
              example_com eq_refl)
    as (w & rq & ua & Hrun & Hsent & _).
  exists w. split; [exact Hrun |].
  injection Hrun as <-. reflexivity.
Defined.

End OutgoingRequest.

(** ** The invariant of the result and the reachability of the report *)
Section ResultInvariant.
Import World.

Lemma error_result_invariant table self text msg :
  result_invariant table (error_result self text msg).
Proof.
  unfold result_invariant, error_result. simpl. repeat split; try done.
  intros (code & Hc & _). discriminate Hc.
Qed.

(** The lookup of lines 63-80 keeps the invariant for every status code,
    also for those a response cannot get past line 58 with. *)
Lemma classified_invariant self r :
  Vscan.error_patterns self = Vscan.error_patterns_literal ->
  result_invariant Vscan.error_patterns_literal (classified self r).
Proof.
  intros Ht. unfold result_invariant, classified. rewrite Ht.
  destruct (Vscan.error_patterns_literal !! Requests.status_code r)
    as [d |] eqn:Hd; simpl.
  - assert (Hin : In (Requests.status_code r) pattern_codes).
    { apply contains_literal. unfold Vscan.contains.
      apply bool_decide_eq_true. by rewrite Hd. }
    repeat split; try done; eauto.
  - repeat split; try done.
    intros (code & [= <-] & Hin).
    apply literal_lookup_code in Hin. rewrite Hd in Hin. by destruct Hin.
Qed.

(** C9: every dictionary [scan] returns for an analyzer built by
    [__init__] has [vulnerable] true exactly when [status_code] is one of
    the seven keys of the table; when [vulnerable] is true, [status_code]
    is not [None] and the description is the table's entry; when
    [status_code] is [None], [vulnerable] is false and
    [response_headers] is empty. *)
Theorem C9_result_invariant :
  forall (network : Requests.Request -> Requests.get_outcome)
         (v : Py.value) (ua : option string) (t : Z) (i : bool)
         (self : Vscan.VscanErrorAnalyzer) (w : world),
    Vscan.init v ua t i = inr self ->
    exists r w',
      Vscan.scan network self w = (inr r, w')
      /\ result_invariant (Vscan.error_patterns self) r.
Proof.
  intros network v ua t i self w Hinit.
  pose proof (init_error_patterns v ua t i self Hinit) as Ht.
  destruct (scan_runs network self w) as (w' & Hs & _).
  exists (scan_value network self), w'. split; [exact Hs |].
  rewrite Ht. unfold scan_value.
  destruct (network (Vscan.request_of self)) as [r | cls msg].
  - destruct (Requests.raise_for_status r).
    + apply error_result_invariant.
    + by apply classified_invariant.
  - destruct (Py.is_RequestException _); apply error_result_invariant.
Qed.

Lemma C9_result_invariant_witness :
  Vscan.init (Py.VStr "https://example.com") None 10 false
    = inr (analyzer_of example_com)
  /\ exists r w',
      Vscan.scan (answering (Requests.mkResponse 200 "OK" "https://example.com/"
                               [("Server", "nginx")]))
        (analyzer_of example_com) after_import = (inr r, w')
      /\ result_invariant (Vscan.error_patterns (analyzer_of example_com)) r.
Proof.
  split; [reflexivity |].
  apply (C9_result_invariant _ (Py.VStr "https://example.com") None 10 false).
  reflexivity.
Defined.

Lemma report_has_no_fallback_line r :
  ¬ In "No results found." (report r).
Proof.
  unfold report. intros Hin. apply in_app_or in Hin as [Hin | Hin].
  - cbn [In] in Hin.
    repeat (destruct Hin as [Hin | Hin]; [discriminate Hin |]).
    exact Hin.
  - apply in_map_iff in Hin as (item & Hitem & _). discriminate Hitem.
Qed.

(** C10: [scan] returns a dictionary from every state and for every
    outcome of the GET, and a run whose constructor succeeded exits with
    status 0 after printing the five report lines and the headers of that
    dictionary; the line [No results found.] is not printed. *)
Theorem C10_scan_always_returns_and_report_printed :
  forall (network : Requests.Request -> Requests.get_outcome)
         (c : Cli.CommandLine),
    valid_url (Cli.given_url c) = true ->
    (forall self w0, exists r w', Vscan.scan network self w0 = (inr r, w'))
    /\ exists w r,
         fst (Vscan.scan network (analyzer_of c) (at_try c)) = inr r
         /\ Result.truthy r = true
         /\ Cli.run network c = (0, w)
         /\ stdout w = report r
         /\ length (stdout w) = (5 + length (Result.response_headers r))%nat
         /\ ¬ In "No results found." (stdout w).
Proof.
  intros network c Hv. split.
  - intros self w0. destruct (scan_runs network self w0) as (w' & Hs & _).
    eauto.
  - destruct (run_valid network c Hv) as (w & Hrun & Hout & _).
    destruct (scan_runs network (analyzer_of c) (at_try c)) as (w' & Hs & _).
    exists w, (scan_value network (analyzer_of c)).
    rewrite Hs. repeat split; try done.
    + rewrite Hout. unfold report. rewrite length_app, length_map. reflexivity.
    + rewrite Hout. apply report_has_no_fallback_line.
Qed.

Lemma C10_scan_always_returns_and_report_printed_witness :
  valid_url (Cli.given_url example_com) = true
  /\ exists w,
      Cli.run (failing Py.OtherException "boom") example_com = (0, w)
      /\ ¬ In "No results found." (stdout w).
Proof.
  split; [reflexivity |].
  destruct (C10_scan_always_returns_and_report_printed
              (failing Py.OtherException "boom") example_com eq_refl)
    as (_ & w & r & _ & _ & Hrun & _ & _ & Hno).
  exists w. by split.
Defined.

End ResultInvariant.


(** * Further properties of the code *)

(** ** Outcomes of the GET the claims leave out *)
Section OtherOutcomes.
Import World.

(** An exception of the GET outside the [RequestException] family, a
    [ValueError] or [TypeError] included, is handled by the second clause
    of [scan] (lines 92-100): the report shows it as an unexpected error
    and the exit status is 0; the handlers of [main] do not see it. *)
Theorem unexpected_exception_reported :
  forall (network : Requests.Request -> Requests.get_outcome)
         (c : Cli.CommandLine) (cls : Py.exc_class) (msg : string),
    valid_url (Cli.given_url c) = true ->
    network (Vscan.request_of (analyzer_of c)) = Requests.Fails cls msg ->
    Py.is_RequestException (Py.Exn cls msg) = false ->
    exists w,
      Cli.run network c = (0, w)
      /\ stdout w =
           [ "URL: " ++ Cli.given_url c;
             "Status Code: None";
             "Description: An unexpected error occurred: " ++ msg;
             "Vulnerable: False";
             "Response Headers:" ].
Proof.
  intros network c cls msg Hv Hn Hc.
  destruct (run_valid network c Hv) as (w & Hrun & Hout & _).
  exists w. split; [exact Hrun |].
  rewrite Hout. unfold scan_value. by rewrite Hn, Hc.
Qed.

Lemma unexpected_exception_reported_witness :
  exists w,
    Cli.run (failing Py.ValueError "Attempted to set connect timeout to 0")
      (Cli.mkCommandLine "http://example.com" None (Some 0) false false)
      = (0, w)
    /\ stdout w =
         [ "URL: http://example.com";
           "Status Code: None";
           "Description: An unexpected error occurred: Attempted to set connect timeout to 0";
           "Vulnerable: False";
           "Response Headers:" ].
Proof.
  exact (unexpected_exception_reported
           (failing Py.ValueError "Attempted to set connect timeout to 0")
           (Cli.mkCommandLine "http://example.com" None (Some 0) false false)
           Py.ValueError "Attempted to set connect timeout to 0"
           eq_refl eq_refl eq_refl).
Defined.

Lemma outside_errors_not_in_table (code : Z) :
  ¬ (400 <= code < 600) -> ¬ In code pattern_codes.
Proof. intros Hout Hin. by apply Hout, pattern_codes_are_errors. Qed.

(** A response whose status is outside 400-599 passes line 58 and is not in
    the table: the report shows its status code, the generic description,
    [Vulnerable: False] and one line for each response header, in the
    order of the response. *)
Theorem other_status_reported_with_headers :
  forall (network : Requests.Request -> Requests.get_outcome)
         (c : Cli.CommandLine) (r : Requests.Response),
    valid_url (Cli.given_url c) = true ->
    network (Vscan.request_of (analyzer_of c)) = Requests.Responds r ->
    ¬ (400 <= Requests.status_code r < 600) ->
    exists w,
      Cli.run network c = (0, w)
      /\ stdout w =
           app
             [ "URL: " ++ Cli.given_url c;
               "Status Code: " ++ pretty (Requests.status_code r);
               "Description: No known vulnerability associated with this status code.";
               "Vulnerable: False";
               "Response Headers:" ]
             (map (fun item => "  " ++ fst item ++ ": " ++ snd item)
                (Requests.headers r)).
Proof.
  intros network c r Hv Hn Hr.
  destruct (run_valid network c Hv) as (w & Hrun & Hout & _).
  exists w. split; [exact Hrun |].
  rewrite Hout, (scan_value_classified network _ r Hn Hr).
  rewrite classified_outside_table;
    [reflexivity | reflexivity | by apply outside_errors_not_in_table].
Qed.

Lemma other_status_reported_with_headers_witness :
  exists w,
    Cli.run (answering (Requests.mkResponse 301 "Moved Permanently"
                          "https://example.com/"
                          [("Server", "nginx"); ("Content-Length", "0")]))
      example_com = (0, w)
    /\ stdout w =
         [ "URL: https://example.com";
           "Status Code: 301";
           "Description: No known vulnerability associated with this status code.";
           "Vulnerable: False";
           "Response Headers:";
           "  Server: nginx";
           "  Content-Length: 0" ].
Proof.
  destruct (other_status_reported_with_headers
              (answering (Requests.mkResponse 301 "Moved Permanently"
                            "https://example.com/"
                            [("Server", "nginx"); ("Content-Length", "0")]))
              example_com
              (Requests.mkResponse 301 "Moved Permanently" "https://example.com/"
                 [("Server", "nginx"); ("Content-Length", "0")])
              eq_refl eq_refl) as (w & Hrun & Hout).
  - simpl. lia.
  - exists w. split; [exact Hrun |]. rewrite Hout. by vm_compute.
Defined.

End OtherOutcomes.

(** ** What the call of line 58 rules out *)
Section NeverVulnerable.
Import World.

Lemma passes_line_58 (r : Requests.Response) :
  Requests.raise_for_status r = inr tt ->
  ¬ (400 <= Requests.status_code r < 600).
Proof.
  intros Hs Hr. rewrite (raise_for_status_error r Hr) in Hs. discriminate Hs.
Qed.

Lemma scan_value_not_vulnerable
    (network : Requests.Request -> Requests.get_outcome)
    (self : Vscan.VscanErrorAnalyzer) :
  Vscan.error_patterns self = Vscan.error_patterns_literal ->
  Result.vulnerable (scan_value network self) = false.
Proof.
  intros Ht. unfold scan_value.
  destruct (network (Vscan.request_of self)) as [r | cls msg].
  - destruct (Requests.raise_for_status r) as [e | []] eqn:Hs; [reflexivity |].
    rewrite classified_outside_table; [reflexivity | exact Ht |].
    by apply outside_errors_not_in_table, passes_line_58.
  - by destruct (Py.is_RequestException _).
Qed.

(** With the table [__init__] builds, [scan] never returns a dictionary
    whose [vulnerable] is [True], whatever the GET comes back with: every
    key of the table is a status line 58 raises for. *)
Theorem scan_never_vulnerable :
  forall (network : Requests.Request -> Requests.get_outcome)
         (v : Py.value) (ua : option string) (t : Z) (i : bool)
         (self : Vscan.VscanErrorAnalyzer) (w : world),
    Vscan.init v ua t i = inr self ->
    exists r w',
      Vscan.scan network self w = (inr r, w')
      /\ Result.vulnerable r = false.
Proof.
  intros network v ua t i self w Hinit.
  destruct (scan_runs network self w) as (w' & Hs & _).
  exists (scan_value network self), w'. split; [exact Hs |].
  apply scan_value_not_vulnerable. by eapply init_error_patterns.
Qed.

Lemma scan_never_vulnerable_witness :
  exists r w',
    Vscan.scan (answering (Requests.mkResponse 500 "Internal Server Error"
                             "https://example.com/" []))
      (analyzer_of example_com) after_import = (inr r, w')
    /\ Result.vulnerable r = false.
Proof.
  apply (scan_never_vulnerable _ (Py.VStr "https://example.com") None 10 false).
  reflexivity.
Defined.


(** When the dictionary of [scan] has a status code, the code is the one
    of the response, it is not a 4xx or 5xx code, and the headers are the
    ones of the response. *)
Theorem reported_status_is_never_4xx_5xx :
  forall (network : Requests.Request -> Requests.get_outcome)
         (self : Vscan.VscanErrorAnalyzer) (w w' : world)
         (r : Result.ScanResult) (code : Z),
    Vscan.scan network self w = (inr r, w') ->
    Result.status_code r = Some code ->
    ¬ (400 <= code < 600)
    /\ exists resp,
         network (Vscan.request_of self) = Requests.Responds resp
         /\ Requests.status_code resp = code
         /\ Result.response_headers r = Requests.headers resp.
Proof.
  intros network self w w' r code Hscan Hcode.
  destruct (scan_runs network self w) as (w1 & Hs & _).
  rewrite Hs in Hscan. injection Hscan as <- <-.
  unfold scan_value in Hcode |- *.
  destruct (network (Vscan.request_of self)) as [resp | cls msg].
  - destruct (Requests.raise_for_status resp) as [e | []] eqn:Hr;
      [discriminate Hcode |].
    apply passes_line_58 in Hr. unfold classified in Hcode |- *.
    destruct (Vscan.error_patterns self !! Requests.status_code resp);
      injection Hcode as <-; (split; [exact Hr | by exists resp]).
  - destruct (Py.is_RequestException _); discriminate Hcode.
Qed.

Lemma reported_status_is_never_4xx_5xx_witness :
  ¬ (400 <= 204 < 600)
  /\ exists resp,
       answering (Requests.mkResponse 204 "No Content" "https://example.com/"
                    [("Server", "nginx")])
         (Vscan.request_of (analyzer_of example_com)) = Requests.Responds resp
       /\ Requests.status_code resp = 204
       /\ [("Server", "nginx")] = Requests.headers resp.
Proof.
  exact (reported_status_is_never_4xx_5xx
           (answering (Requests.mkResponse 204 "No Content" "https://example.com/"
                         [("Server", "nginx")]))
           (analyzer_of example_com) after_import _ _ 204 eq_refl eq_refl).
Defined.

End NeverVulnerable.

(** ** The constructor *)
Section Constructor.

(** What [__init__] leaves on the analyzer when it succeeds: [url] is the
    string it was given and has one of the two prefixes, [timeout] and
    [ignore_ssl_errors] are the arguments, [user_agent] is never empty and
    is the argument whenever that is a non-empty string, and [headers]
    holds exactly the [User-Agent] entry with that value. *)
Theorem init_establishes_attributes :
  forall (v : Py.value) (ua : option string) (t : Z) (i : bool)
         (self : Vscan.VscanErrorAnalyzer),
    Vscan.init v ua t i = inr self ->
    v = Py.VStr (Vscan.url self)
    /\ valid_url (Vscan.url self) = true
    /\ Vscan.timeout self = t
    /\ Vscan.ignore_ssl_errors self = i
    /\ Vscan.user_agent self <> ""
    /\ (forall s, ua = Some s -> s <> "" -> Vscan.user_agent self = s)
    /\ Vscan.headers self = [("User-Agent", Vscan.user_agent self)].
Proof.
  intros v ua t i self. unfold Vscan.init.
  destruct v as [| | | s]; try discriminate.
  destruct (Py.startswith s ["http://"; "https://"]) eqn:Hp; [| discriminate].
  cbn [negb]. intros [= <-]. cbn. repeat split; try done.
  - unfold Py.or_default, Py.truthy_opt_str.
    destruct ua as [s' |]; [| discriminate].
    destruct (String.eqb_spec s' ""); [discriminate | done].
  - intros s' -> Hs. unfold Py.or_default, Py.truthy_opt_str.
    by destruct (String.eqb_spec s' "").
Qed.

Lemma init_establishes_attributes_witness :
  Py.VStr "http://10.0.0.1:8080/admin" = Py.VStr "http://10.0.0.1:8080/admin"
  /\ valid_url "http://10.0.0.1:8080/admin" = true
  /\ 3 = 3
  /\ true = true
  /\ "curl/8.0" <> ""
  /\ (forall s, Some "curl/8.0" = Some s -> s <> "" -> "curl/8.0" = s)
  /\ [("User-Agent", "curl/8.0")] = [("User-Agent", "curl/8.0")].
Proof.
  exact (init_establishes_attributes
           (Py.VStr "http://10.0.0.1:8080/admin") (Some "curl/8.0") 3 true
           {| Vscan.url := "http://10.0.0.1:8080/admin";
              Vscan.user_agent := "curl/8.0";
              Vscan.timeout := 3;
              Vscan.ignore_ssl_errors := true;
              Vscan.headers := [("User-Agent", "curl/8.0")];
              Vscan.error_patterns := Vscan.error_patterns_literal |}
           eq_refl).
Defined.

Lemma prefix_of_append (p rest : string) : String.prefix p (p ++ rest) = true.
Proof.
  induction p as [| a p IH]; simpl.
  - by destruct rest.
  - by destruct (ascii_dec a a).
Qed.

(** The two checks of lines 28-31 are all the validation there is: every
    string that begins with [http://] or [https://] is accepted, whatever
    follows the prefix, the empty rest included. *)
Theorem init_accepts_every_prefixed_string :
  forall (rest : string) (ua : option string) (t : Z) (i : bool),
    (exists self, Vscan.init (Py.VStr ("http://" ++ rest)) ua t i = inr self
                  /\ Vscan.url self = "http://" ++ rest)
    /\ (exists self, Vscan.init (Py.VStr ("https://" ++ rest)) ua t i = inr self
                     /\ Vscan.url self = "https://" ++ rest).
Proof.
  intros rest ua t i. split.
  - eexists. split; [apply init_valid | reflexivity].
    unfold valid_url, Py.startswith. cbn [existsb].
    by rewrite (prefix_of_append "http://" rest).
  - eexists. split; [apply init_valid | reflexivity].
    unfold valid_url, Py.startswith. cbn [existsb].
    rewrite (prefix_of_append "https://" rest). apply orb_true_r.
Qed.

End Constructor.

(** ** What [scan] does to the state *)
Section ScanEffects.
Import World.

(** [scan] sends exactly one GET, the one built from the analyzer's
    attributes, and neither prints nor changes the level of the logger;
    this holds on the error paths as well: no request is retried. *)
Theorem scan_sends_one_get_and_prints_nothing :
  forall (network : Requests.Request -> Requests.get_outcome)
         (self : Vscan.VscanErrorAnalyzer) (w : world),
    exists r w',
      Vscan.scan network self w = (inr r, w')
      /\ sent w' = (sent w ++ [Vscan.request_of self])%list
      /\ stdout w' = stdout w
      /\ root_level w' = root_level w.
Proof.
  intros network self w.
  destruct (scan_runs network self w) as (w' & Hs & Ho & Hsent & _ & Hl & _).
  exists (scan_value network self), w'. by repeat split.
Qed.

Lemma error_always_logged (msg : string) (w : world) :
  log (snd (logging ERROR msg w)) = (log w ++ [(ERROR, msg)])%list.
Proof. unfold logging. by destruct (root_level w). Qed.

Lemma log_after_logging (l : level) (msg : string) (w : world) :
  exists mid, log (snd (logging l msg w)) = (log w ++ mid)%list.
Proof.
  unfold logging. cbn [snd].
  destruct (levelno (root_level w) <=? levelno l).
  - by exists [(l, msg)].
  - exists []. by rewrite app_nil_r.
Qed.

(** The state in which the handlers of [scan] run. *)
Lemma scan_error_path
    (network : Requests.Request -> Requests.get_outcome)
    (self : Vscan.VscanErrorAnalyzer) (w : world) :
  Result.status_code (scan_value network self) = None ->
  Vscan.scan network self w =
    (inr (scan_value network self),
     snd (logging ERROR (Result.description (scan_value network self))
            (after_get (Vscan.request_of self)
               (snd (logging INFO ("Scanning URL: " ++ Vscan.url self) w))))).
Proof.
  unfold Vscan.scan, try_clauses, Vscan.scan_body, scan_value, bind.
  change (logging INFO ("Scanning URL: " ++ Vscan.url self) w)
    with (@inr Py.exn unit tt,
          snd (logging INFO ("Scanning URL: " ++ Vscan.url self) w)).
  cbv beta iota. rewrite requests_get_runs.
  destruct (network (Vscan.request_of self)) as [r | cls msg].
  - unfold lift at 1.
    destruct (Requests.raise_for_status r) as [e | []] eqn:Hr.
    + intros _.
      assert (He : Py.is_RequestException e = true).
      { unfold Requests.raise_for_status in Hr.
        repeat match type of Hr with
               | (if ?b then _ else _) = _ => destruct b
               end; by inversion Hr. }
      unfold raise, select_handler. rewrite He. reflexivity.
    + unfold classified.
      destruct (Vscan.error_patterns self !! Requests.status_code r);
        discriminate.
  - intros _. unfold select_handler.
    destruct (Py.is_RequestException (Py.Exn cls msg)); reflexivity.
Qed.

(** Every dictionary without a status code is logged: when [scan] returns
    [status_code] [None], the last record it logged is at level ERROR and
    carries the description of the dictionary; the records logged before
    the call are kept. *)
Theorem error_result_is_logged :
  forall (network : Requests.Request -> Requests.get_outcome)
         (self : Vscan.VscanErrorAnalyzer) (w w' : world)
         (r : Result.ScanResult),
    Vscan.scan network self w = (inr r, w') ->
    Result.status_code r = None ->
    exists mid,
      log w' = (log w ++ mid ++ [(ERROR, Result.description r)])%list.
Proof.
  intros network self w w' r Hscan Hnone.
  destruct (scan_runs network self w) as (w1 & Hs & _).
  assert (Hr : r = scan_value network self) by congruence. subst r.
  rewrite (scan_error_path network self w Hnone) in Hscan.
  apply (f_equal snd) in Hscan. cbn [snd] in Hscan. subst w'.
  rewrite error_always_logged. cbn [log after_get].
  destruct (log_after_logging INFO ("Scanning URL: " ++ Vscan.url self) w)
    as (mid & ->).
  exists mid. by rewrite <- app_assoc.
Qed.

Lemma error_result_is_logged_witness :
  exists mid,
    log (snd (Vscan.scan (failing Py.ConnectionError "Connection refused")
                (analyzer_of example_com) after_import))
    = (log after_import ++ mid
         ++ [(ERROR, "Request error: Connection refused")])%list.
Proof.
  exact (error_result_is_logged
           (failing Py.ConnectionError "Connection refused")
           (analyzer_of example_com) after_import _ _ eq_refl eq_refl).
Defined.

(** The lookup of lines 63-71 on an analyzer whose table has an entry for
    the status received: when the response passes line 58, the dictionary
    has [vulnerable] [True], the status code, the table's description for
    it and the headers of the response. *)
Theorem table_entry_marks_vulnerable :
  forall (network : Requests.Request -> Requests.get_outcome)
         (self : Vscan.VscanErrorAnalyzer) (resp : Requests.Response)
         (d : string) (w : world),
    network (Vscan.request_of self) = Requests.Responds resp ->
    ¬ (400 <= Requests.status_code resp < 600) ->
    Vscan.error_patterns self !! Requests.status_code resp = Some d ->
    fst (Vscan.scan network self w) =
      inr {| Result.url := Vscan.url self;
             Result.status_code := Some (Requests.status_code resp);
             Result.description := d;
             Result.vulnerable := true;
             Result.response_headers := Requests.headers resp |}.
Proof.
  intros network self resp d w Hn Hr Hd.
  destruct (scan_runs network self w) as (w' & -> & _). cbn [fst].
  rewrite (scan_value_classified network self resp Hn Hr).
  unfold classified. by rewrite Hd.
Qed.

Lemma table_entry_marks_vulnerable_witness :
  fst (Vscan.scan
         (answering (Requests.mkResponse 302 "Found" "http://example.com/login"
                       [("Location", "/login")]))
         {| Vscan.url := "http://example.com";
            Vscan.user_agent := "vscan-error-code-analyzer/1.0";
            Vscan.timeout := 10;
            Vscan.ignore_ssl_errors := false;
            Vscan.headers := [("User-Agent", "vscan-error-code-analyzer/1.0")];
            Vscan.error_patterns :=
              <[302 := "Redirect. Check for open redirects."]>
                Vscan.error_patterns_literal |}
         after_import)
  = inr {| Result.url := "http://example.com";
           Result.status_code := Some 302;
           Result.description := "Redirect. Check for open redirects.";
           Result.vulnerable := true;
           Result.response_headers := [("Location", "/login")] |}.
Proof.
  apply (table_entry_marks_vulnerable
           (answering (Requests.mkResponse 302 "Found" "http://example.com/login"
                         [("Location", "/login")]))
           {| Vscan.url := "http://example.com";
              Vscan.user_agent := "vscan-error-code-analyzer/1.0";
              Vscan.timeout := 10;
              Vscan.ignore_ssl_errors := false;
              Vscan.headers := [("User-Agent", "vscan-error-code-analyzer/1.0")];
              Vscan.error_patterns :=
                <[302 := "Redirect. Check for open redirects."]>
                  Vscan.error_patterns_literal |}
           (Requests.mkResponse 302 "Found" "http://example.com/login"
              [("Location", "/login")])).
  - reflexivity.
  - simpl. lia.
  - by vm_compute.
Defined.

End ScanEffects.

(** ** The exit status and the flags of a run *)
Section RunOutcomes.
Import World.


Lemma analyzer_ignores_verbose (u : string) (ua : option string)
    (t : option Z) (i v : bool) :
  analyzer_of (Cli.mkCommandLine u ua t i v)
  = analyzer_of (Cli.mkCommandLine u ua t i false).
Proof. reflexivity. Qed.

(** [-v] changes the level of the logger and nothing else a user of the
    output sees: with and without it a run has the same exit status,
    prints the same lines and sends the same request. *)
Theorem verbose_changes_no_output :
  forall (network : Requests.Request -> Requests.get_outcome)
         (u : string) (ua : option string) (t : option Z) (i : bool),
    fst (Cli.run network (Cli.mkCommandLine u ua t i true))
      = fst (Cli.run network (Cli.mkCommandLine u ua t i false))
    /\ stdout (snd (Cli.run network (Cli.mkCommandLine u ua t i true)))
      = stdout (snd (Cli.run network (Cli.mkCommandLine u ua t i false)))
    /\ sent (snd (Cli.run network (Cli.mkCommandLine u ua t i true)))
      = sent (snd (Cli.run network (Cli.mkCommandLine u ua t i false))).
Proof.
  intros network u ua t i.
  destruct (valid_url u) eqn:Hv.
  - destruct (run_valid network (Cli.mkCommandLine u ua t i true) Hv)
      as (w1 & -> & Ho1 & Hs1 & _).
    destruct (run_valid network (Cli.mkCommandLine u ua t i false) Hv)
      as (w2 & -> & Ho2 & Hs2 & _).
    cbn [fst snd]. rewrite Ho1, Ho2, Hs1, Hs2.
    by rewrite (analyzer_ignores_verbose u ua t i true).
  - destruct (run_invalid network (Cli.mkCommandLine u ua t i true) Hv)
      as (w1 & -> & Ho1 & Hs1).
    destruct (run_invalid network (Cli.mkCommandLine u ua t i false) Hv)
      as (w2 & -> & Ho2 & Hs2).
    cbn [fst snd]. by rewrite Ho1, Ho2, Hs1, Hs2.
Qed.




End RunOutcomes.
